(** * chatroom-api: the route handlers of the two resources

    A shallow embedding of [app/routes/chatroom_routes.js] and of its
    sibling for projects, the two Express routers of the repository,
    together with the schema files of the models.  A handler is a
    function from the collection to the collection and the way the
    request settles: a response, or an error handed to [next].

    What is modelled, and how:
    - a JavaScript value is a [value]; an object used as a record
      (a resource payload, the attributes of a document) is a finite
      map from property names to values, a missing property reading as
      [None], the way it reads as [undefined] in the source;
    - a request body is an object whose members are resource payloads
      ([req.body.chatroom], [req.body.project], [req.body.game]); a
      member that is missing or [null] reads as [None], a property of
      either being read or deleted with a TypeError, and a member of
      another type that is not an object is outside the model;
    - a promise chain is a computation in a state and error monad over
      the collection; [.then] is its bind and [.catch(next)] delivers
      the rejection as the outcome of the request.  Requests are taken
      one at a time; the interleaving of concurrent requests and the
      timestamps the store maintains are not modelled;
    - the store is the collaborator of the spec's system overview:
      create, find all, find by id, update by id, delete by id.  It
      validates the required paths of the schema on create, holds the
      reference paths as identifier objects and refuses a value it
      cannot turn into one, and on update it sets the paths of the
      update, those under the operator [$set] included.
    What the store does besides is not modelled, and a statement that
    would depend on it says in its hypotheses which requests it is
    about: the other update operators and dotted paths, the dropping of
    paths that are not in the schema, the conversion of values on paths
    that are not references, unique indexes, the [updatedAt] the store
    rewrites on every update, and the rejection, with a CastError, of a
    lookup by an id that is not the text of an identifier. *)

From stdpp Require Import gmap strings list fin_maps.
From Stdlib Require Import ZArith.

Open Scope string_scope.

(** ** Values *)

(** The values a request body or a stored document can hold.  [VObjectId]
    is an identifier object as the store returns it for a path of schema
    type [ObjectId]; the other constructors are what a JSON parser
    produces. *)
#[warnings="-register-all"]
Inductive value :=
| VNull
| VBool (b : bool)
| VNum (n : Z)  (* the integers among the numbers *)
| VStr (s : string)
| VArr (items : list value)
| VObj (members : list (string * value))
| VObjectId (hex : string).

(** An identifier, in its hexadecimal text form ([req.params.id],
    [req.user.id]). *)
Abbreviation oid := string (only parsing).

(** A plain object used as a record: property name to value. *)
Abbreviation fields := (gmap string value) (only parsing).

(** [req.body]: the resource payloads by the key that wraps them. *)
Abbreviation body := (gmap string (gmap string value)) (only parsing).

(** The collection: attributes of every document by its [_id]. *)
Abbreviation store := (gmap string (gmap string value)) (only parsing).

(** A document as [findById] hands it to the handler. *)
Record document := Doc { doc_id : oid; doc_attrs : gmap string value }.

(** [req.user], set by [requireToken] on the routes that name it. *)
Record user := User { user_id : oid }.

(** [a === b] on two values, the left one read from the request body and
    the right one from a document.  Primitives compare by type and value;
    an object (array, object, identifier object) is equal only to itself,
    and the body and the document never hold the same object. *)
Definition strictEqV (a b : value) : bool :=
  match a, b with
  | VNull, VNull => true
  | VBool x, VBool y => Bool.eqb x y
  | VNum x, VNum y => Z.eqb x y
  | VStr x, VStr y => String.eqb x y
  | _, _ => false
  end.

(** [a === b] on two property reads; [None] is [undefined]. *)
Definition strictEq (a b : option value) : bool :=
  match a, b with
  | None, None => true
  | Some x, Some y => strictEqV x y
  | _, _ => false
  end.

(** ** Errors, responses, promises *)

(** The errors a request can end with.  [NotFound] and [NotOwner] are the
    two custom errors of [lib/custom_errors]; [TypeError] is the
    JavaScript one (a property of [undefined], a call of something that
    is not a function); [ValidationError] and [CastError] come from the
    store: a document it does not accept on create, a value of an update
    it cannot convert. *)
Inductive error := NotFound | NotOwner | TypeError | ValidationError | CastError.

(** What [res.json] is given, if anything. *)
Inductive json :=
| NoContent
| One (key : string) (d : document)
| Many (key : string) (ds : list document).

Record response := Response { status : nat; sent : json }.

Inductive settled (A : Type) :=
| Fulfilled (a : A)
| Rejected (e : error).
Arguments Fulfilled {A} a.
Arguments Rejected {A} e.

(** A promise over the collection: running it gives the collection
    afterwards and the way the promise settled. *)
Definition promise (A : Type) : Type :=
  gmap string (gmap string value) -> gmap string (gmap string value) * settled A.

Definition resolve {A} (a : A) : promise A := fun st => (st, Fulfilled a).

Definition reject {A} (e : error) : promise A := fun st => (st, Rejected e).

(** [p.then(f)]: a rejection skips [f]. *)
Definition andThen {A B} (f : A -> promise B) (p : promise A) : promise B :=
  fun st =>
    match p st with
    | (st', Fulfilled a) => f a st'
    | (st', Rejected e) => (st', Rejected e)
    end.

#[global] Instance promise_ret : MRet promise := @resolve.
#[global] Instance promise_bind : MBind promise := @andThen.
#[global] Instance promise_fmap : FMap promise :=
  fun A B f p => andThen (fun a => resolve (f a)) p.

(** ** The schemas of the models *)

(** What the handlers depend on in a schema: the paths marked
    [required: true]. *)
Record schema := Schema { required : list string }.

(** The schema with [user1], [user2], [messages] and [owner]. *)
Definition plainSchema : schema := Schema ["user1"; "owner"].

(** The schema that adds [title], [user1Email] and [user2Email]. *)
Definition titledSchema : schema := Schema ["title"; "user1"; "owner"].

(** The top-level paths of type [mongoose.Schema.Types.ObjectId], the same
    in both schemas. *)
Definition referencePaths : list string := ["user1"; "user2"; "owner"].

(** ** Identifiers and names of paths *)

Definition isHexDigit (c : Ascii.ascii) : bool :=
  let n := Ascii.nat_of_ascii c in
  ((48 <=? n)%nat && (n <=? 57)%nat)
  || ((65 <=? n)%nat && (n <=? 70)%nat)
  || ((97 <=? n)%nat && (n <=? 102)%nat).

Fixpoint allHex (s : string) : bool :=
  match s with
  | EmptyString => true
  | String c rest => isHexDigit c && allHex rest
  end.

(** The text of an identifier: 24 hexadecimal digits.  (Some versions of
    the driver also take any text of 12 characters; no statement is about
    such a text.) *)
Definition isObjectId (s : string) : bool :=
  (String.length s =? 24)%nat && allHex s.

Fixpoint hasDot (s : string) : bool :=
  match s with
  | EmptyString => false
  | String c rest => Ascii.eqb c (Ascii.ascii_of_nat 46) || hasDot rest
  end.

(** A key that names a top-level path: not an update operator ([$set],
    [$unset], ...) and not a dotted path into a document. *)
Definition plainPath (k : string) : bool :=
  negb (String.prefix "$" k) && negb (hasDot k).

(** ** The store *)

Module Model.

(** The store turns the text of an identifier into an identifier object
    when it writes a reference path. *)
Definition castAt (path : string) (v : value) : value :=
  if bool_decide (path ∈ referencePaths) then
    match v with
    | VStr s => VObjectId s
    | _ => v
    end
  else v.

Definition castPaths (attrs : gmap string value) : gmap string value :=
  map_imap (fun path v => Some (castAt path v)) attrs.

(** The members of an object as parsed: a later member replaces an earlier
    one of the same name. *)
Definition members (ms : list (string * value)) : gmap string value :=
  list_to_map (reverse ms).

(** The paths an update sets: its own keys and the members of its [$set],
    a key of the update itself going before the same path under [$set]. *)
Definition setPaths (update : gmap string value) : gmap string value :=
  delete "$set" update
  ∪ match update !! "$set" with
    | Some (VObj ms) => members ms
    | _ => ∅
    end.

(** The paths an update sets, with the values as the store writes them. *)
Definition cast (update : gmap string value) : gmap string value :=
  castPaths (setPaths update).

(** What the store accepts on a reference path: nothing, [null], or the
    text of an identifier. *)
Definition castableRef (v : option value) : bool :=
  match v with
  | None | Some VNull | Some (VObjectId _) => true
  | Some (VStr s) => isObjectId s
  | Some _ => false
  end.

Definition castablePaths (attrs : gmap string value) : bool :=
  forallb (fun path => castableRef (attrs !! path)) referencePaths.

(** An update the store can convert: its [$set], if it has one, is an
    object, and the reference paths it sets are acceptable. *)
Definition castable (update : gmap string value) : bool :=
  match update !! "$set" with
  | None | Some (VObj _) => castablePaths (setPaths update)
  | Some _ => false
  end.

(** A required path is satisfied by a value other than [null] and the
    empty string. *)
Definition present (v : option value) : bool :=
  match v with
  | None | Some VNull | Some (VStr "") => false
  | Some _ => true
  end.

Definition validate (sch : schema) (attrs : gmap string value) : bool :=
  forallb (fun path => present (attrs !! path)) (required sch).

(** [Model.find()] *)
Definition find : promise (list document) :=
  fun st => (st, Fulfilled ((fun '(i, a) => Doc i a) <$> map_to_list st)).

(** [Model.findById(id)]: the document, or [null].  The id is taken to be
    the text of an identifier, as every id of the collection is; the
    store's CastError for another text is not modelled. *)
Definition findById (id : oid) : promise (option document) :=
  fun st => (st, Fulfilled (Doc id <$> st !! id)).

(** [Model.create(attrs)], [newId] being the identifier the store assigns.
    [undefined] for [attrs] is a document without attributes.  A required
    path that is missing and a reference the store cannot convert both
    make the validation fail. *)
Definition create (sch : schema) (newId : oid) (attrs : option (gmap string value))
  : promise document :=
  let attrs := default ∅ attrs in
  if validate sch attrs && castablePaths attrs then
    fun st => (<[newId := castPaths attrs]> st, Fulfilled (Doc newId (castPaths attrs)))
  else reject ValidationError.

(** [Model.findOneAndUpdate({_id: id}, update, {new: true})]: the update
    is converted first, and refused with a CastError when it cannot be;
    then the paths of [update] are set, the other paths keep their value,
    and the document as it stands afterwards is returned; [null] when
    there is none. *)
Definition findOneAndUpdate (id : oid) (update : gmap string value)
  : promise (option document) :=
  fun st =>
    if castable update then
      match st !! id with
      | None => (st, Fulfilled None)
      | Some attrs =>
          let attrs' := cast update ∪ attrs in
          (<[id := attrs']> st, Fulfilled (Some (Doc id attrs')))
      end
    else (st, Rejected CastError).

(** [doc.deleteOne()] *)
Definition deleteOne (d : document) : promise unit :=
  fun st => (delete (doc_id d) st, Fulfilled tt).

End Model.

(** ** The helpers of [lib/] *)

(** Modelled from the spec: [handle404] of [lib/custom_errors], which is
    not among the sources.  The spec's "not found" classifier "maps an
    absent lookup result to a structured 404 failure"; a record that is
    there is passed on. *)
Definition handle404 {A} (record : option A) : promise A :=
  match record with
  | None => reject NotFound
  | Some r => resolve r
  end.

(** The identifier a stored value stands for, if it stands for one. *)
Definition idText (v : value) : option string :=
  match v with
  | VObjectId hex => Some hex
  | VStr s => Some s
  | _ => None
  end.

(** The principal is the one the resource's [owner] names. *)
Definition owns (u : user) (resource : document) : bool :=
  bool_decide (doc_attrs resource !! "owner" ≫= idText = Some (user_id u)).

(** Modelled from the spec: [requireOwnership] of [lib/custom_errors],
    which is not among the sources.  The spec's "not owner" classifier
    "maps a principal/resource mismatch to a structured 401 failure":
    the operation fails with NotOwner "if the authenticated principal does
    not match the resource's owner". *)
Definition requireOwnership (u : user) (resource : document) : promise unit :=
  if owns u resource then resolve tt else reject NotOwner.

Definition isBlank (v : value) : bool :=
  match v with
  | VStr "" => true
  | _ => false
  end.

(** Modelled from the spec: the middleware of [lib/remove_blank_fields],
    which is not among the sources.  The spec's input sanitizer "strips
    empty-string fields from a nested update payload before it reaches
    storage"; the routers describe it by
    [{ game: { title: '', text: 'foo' } } -> { game: { text: 'foo' } }]. *)
Definition removeBlanks (b : gmap string (gmap string value))
  : gmap string (gmap string value) :=
  fmap (M := gmap string)
    (omap (M := gmap string) (fun v : value => if isBlank v then None else Some v)) b.

(** ** The routes *)

Definition respond (code : nat) (j : json) : promise response :=
  resolve (Response code j).

(** What the authorization callback of the update route returns to the
    next [.then]: the result of [findOneAndUpdate] (a document or [null])
    or a plain string. *)
Inductive updateResult :=
| Updated (d : option document)
| Message (text : string).

(** [x.toObject()] on what the callback returned.  A string has no such
    method and [null] has no properties: both throw a [TypeError]. *)
Definition toObject (r : updateResult) : promise document :=
  match r with
  | Updated (Some d) => resolve d
  | Updated None => reject TypeError
  | Message _ => reject TypeError
  end.

Definition notInvolved : string := "You are not involved in this project".

Section Routes.

(** The name of the resource, which is the key of its payload in the body
    and of the document in the response: "chatroom" or "project". *)
Variable key : string.

(** The model's schema. *)
Variable sch : schema.

(** INDEX: [GET /chatrooms], [GET /projects]. *)
Definition index : promise response :=
  resources ← Model.find;
  respond 200 (Many (key ++ "s") resources).

(** SHOW: [GET /chatrooms/:id], [GET /projects/:id]. *)
Definition show (id : oid) : promise response :=
  record ← Model.findById id;
  resource ← handle404 record;
  respond 200 (One key resource).

(** CREATE, with the owner written to [req.body.<target>] and the document
    made from [req.body.<key>].  Writing a property of [undefined] throws
    before the store is called. *)
Definition createAs (target : string) (newId : oid) (u : user)
  (b : gmap string (gmap string value)) : promise response :=
  match b !! target with
  | None => reject TypeError
  | Some payload =>
      let b := <[target := <["owner" := VStr (user_id u)]> payload]> b in
      resource ← Model.create sch newId (b !! key);
      respond 201 (One key resource)
  end.

(** The test of the second [if] of the update callback:
    [(payload.user1 !== resource.user1) && (payload.user2 !== resource.user2)]. *)
Definition mismatch (payload : gmap string value) (resource : document) : bool :=
  negb (strictEq (payload !! "user1") (doc_attrs resource !! "user1"))
  && negb (strictEq (payload !! "user2") (doc_attrs resource !! "user2")).

(** The callback of the update route that stands between the lookup and
    the response. *)
Definition authorizeUpdate (id : oid) (payload : gmap string value)
  (resource : document) : promise updateResult :=
  match doc_attrs resource !! "user2" with
  | None => Updated <$> Model.findOneAndUpdate id payload
  | Some _ =>
      if mismatch payload resource then resolve (Message notInvolved)
      else Updated <$> Model.findOneAndUpdate id payload
  end.

(** The payload the update route works with: [removeBlanks] has run on the
    body, and [delete req.body.<key>.owner] has removed the owner.  [None]
    when the body has no member [key], where the [delete] throws. *)
Definition updatePayload (b : gmap string (gmap string value))
  : option (gmap string value) :=
  delete "owner" <$> removeBlanks b !! key.

(** UPDATE: [PATCH /chatrooms/:id], [PATCH /projects/:id].  The route
    does not name [requireToken]: there is no principal. *)
Definition update (id : oid) (b : gmap string (gmap string value))
  : promise response :=
  match updatePayload b with
  | None => reject TypeError
  | Some payload =>
      record ← Model.findById id;
      resource ← handle404 record;
      result ← authorizeUpdate id payload resource;
      resource' ← toObject result;
      respond 201 (One key resource')
  end.

(** DESTROY: [DELETE /games/:id] for chatrooms, [DELETE /projects/:id].
    The source does not wait for [deleteOne] before it answers; taken one
    request at a time, the removal has happened when the request is over. *)
Definition destroy (u : user) (id : oid) : promise response :=
  record ← Model.findById id;
  resource ← handle404 record;
  _ ← requireOwnership u resource;
  _ ← Model.deleteOne resource;
  respond 204 NoContent.

End Routes.

(** The routers, as the two files instantiate the routes. *)
Module ProjectRoutes.

(** [req.body.project.owner = req.user.id; Project.create(req.body.project)] *)
Definition create (sch : schema) := createAs "project" sch "project".
Definition update := update "project".
Definition show := show "project".
Definition destroy := destroy.

End ProjectRoutes.

Module ChatroomRoutes.

(** [req.body.game.owner = req.user.id; Chatroom.create(req.body.chatroom)] *)
Definition create (sch : schema) := createAs "chatroom" sch "game".
Definition update := update "chatroom".
Definition show := show "chatroom".
Definition destroy := destroy.

End ChatroomRoutes.

(** ** Outcomes and hypotheses used in the statements *)

(** The outcome of an update that went through: the paths of the payload
    are set on the stored document, and the answer is 201 with the
    document as it now stands. *)
Definition updated (key : string) (id : oid) (payload attrs : gmap string value)
  (st : gmap string (gmap string value))
  : gmap string (gmap string value) * settled response :=
  (<[id := Model.cast payload ∪ attrs]> st,
   Fulfilled (Response 201 (One key (Doc id (Model.cast payload ∪ attrs))))).

(** The answer of the update route to what the store made of the update:
    201 with the document, the TypeError of [toObject] on [null], or the
    store's own error. *)
Definition answerUpdate (key : string)
  (outcome : gmap string (gmap string value) * settled (option document))
  : gmap string (gmap string value) * settled response :=
  match outcome with
  | (st, Fulfilled (Some d)) => (st, Fulfilled (Response 201 (One key d)))
  | (st, Fulfilled None) => (st, Rejected TypeError)
  | (st, Rejected e) => (st, Rejected e)
  end.

(** Every key of the object names a top-level path. *)
Definition plainKeys (m : gmap string value) : Prop :=
  forall k, is_Some (m !! k) -> plainPath k = true.

(** A payload that names participants by the text of an identifier and,
    at most, a title in text form besides. *)
Definition namesParticipants (payload : gmap string value) : Prop :=
  forall k v, payload !! k = Some v ->
    ((k = "user1" \/ k = "user2") /\ exists s, v = VStr s /\ isObjectId s = true)
    \/ (k = "title" /\ exists s, v = VStr s).

(** ** Sample principals, documents and requests *)

Definition alice : user := User "5a7db6c74d55bc51bdf39791".
Definition bob : user := User "5a7db6c74d55bc51bdf39792".
Definition carol : user := User "5a7db6c74d55bc51bdf39794".

Definition roomId : oid := "5a7db6c74d55bc51bdf39793".
Definition otherId : oid := "5a7db6c74d55bc51bdf39795".

(** A resource of alice's without a second participant. *)
Definition soloRoom : gmap string value :=
  {[ "user1" := VObjectId (user_id alice); "owner" := VObjectId (user_id alice) ]}.

(** A resource of alice's with bob as the second participant. *)
Definition pairRoom : gmap string value :=
  {[ "user1" := VObjectId (user_id alice); "user2" := VObjectId (user_id bob);
     "owner" := VObjectId (user_id alice) ]}.

Definition soloStore : gmap string (gmap string value) := {[ roomId := soloRoom ]}.
Definition pairStore : gmap string (gmap string value) := {[ roomId := pairRoom ]}.

(** [{ chatroom: { user2: <carol>, owner: <carol>, title: '' } }] *)
Definition joinBody : gmap string (gmap string value) :=
  {[ "chatroom" := {[ "user2" := VStr (user_id carol); "owner" := VStr (user_id carol);
                      "title" := VStr "" ]} ]}.

(** [{ game: {}, chatroom: { title: 'lobby', user1: <alice>, owner: <bob> } }] *)
Definition forgedBody : gmap string (gmap string value) :=
  {[ "game" := ∅;
     "chatroom" := {[ "title" := VStr "lobby"; "user1" := VStr (user_id alice);
                      "owner" := VStr (user_id bob) ]} ]}.

(** [{ chatroom: { title: 'taken over', user1: <carol>, user2: <carol> } }] *)
Definition intruderBody : gmap string (gmap string value) :=
  {[ "chatroom" := {[ "title" := VStr "taken over"; "user1" := VStr (user_id carol);
                      "user2" := VStr (user_id carol) ]} ]}.

(** [{ chatroom: { title: 'renamed', user1: '', user2: '' } }] *)
Definition renameBody : gmap string (gmap string value) :=
  {[ "chatroom" := {[ "title" := VStr "renamed"; "user1" := VStr "";
                      "user2" := VStr "" ]} ]}.

(** [soloRoom] once [joinBody] has been applied to it. *)
Definition joinedRoom : gmap string value :=
  {[ "user1" := VObjectId (user_id alice); "user2" := VObjectId (user_id carol);
     "owner" := VObjectId (user_id alice) ]}.

(** What the store holds for [forgedBody]'s chatroom. *)
Definition forgedRoom : gmap string value :=
  {[ "title" := VStr "lobby"; "user1" := VObjectId (user_id alice);
     "owner" := VObjectId (user_id bob) ]}.

(** [{ chatroom: { title: 'lobby', user1: <alice> } }] *)
Definition plainBody : gmap string (gmap string value) :=
  {[ "chatroom" := {[ "title" := VStr "lobby"; "user1" := VStr (user_id alice) ]} ]}.

(** [{ project: { title: 'plan', user1: <alice>, owner: <bob> } }] *)
Definition projectBody : gmap string (gmap string value) :=
  {[ "project" := {[ "title" := VStr "plan"; "user1" := VStr (user_id alice);
                     "owner" := VStr (user_id bob) ]} ]}.

(** The project the store holds for [projectBody] sent by alice. *)
Definition plan : gmap string value :=
  {[ "title" := VStr "plan"; "user1" := VObjectId (user_id alice);
     "owner" := VObjectId (user_id alice) ]}.

(** [plan] with carol as the second participant. *)
Definition sharedPlan : gmap string value :=
  {[ "title" := VStr "plan"; "user1" := VObjectId (user_id alice);
     "user2" := VObjectId (user_id carol); "owner" := VObjectId (user_id alice) ]}.

(** A resource of alice's whose second participant was given as [null]. *)
Definition openRoom : gmap string value :=
  {[ "user1" := VObjectId (user_id alice); "user2" := VNull;
     "owner" := VObjectId (user_id alice) ]}.

(** [{ chatroom: { title: 'open', user2: null } }] *)
Definition openBody : gmap string (gmap string value) :=
  {[ "chatroom" := {[ "title" := VStr "open"; "user2" := VNull ]} ]}.

(** [{ chatroom: { $set: { owner: <carol> } } }] *)
Definition grabBody : gmap string (gmap string value) :=
  {[ "chatroom" := {[ "$set" := VObj [("owner", VStr (user_id carol))] ]} ]}.

(** [soloRoom] with carol as its owner. *)
Definition grabbedRoom : gmap string value :=
  {[ "user1" := VObjectId (user_id alice); "owner" := VObjectId (user_id carol) ]}.

(** [{ chatroom: { user1: '', $set: { user1: <carol> } } }] *)
Definition overwriteBody : gmap string (gmap string value) :=
  {[ "chatroom" := {[ "user1" := VStr "";
                      "$set" := VObj [("user1", VStr (user_id carol))] ]} ]}.


(** A resource with a second participant and no first one, as an update
    with [$unset] leaves it. *)
Definition orphanRoom : gmap string value :=
  {[ "user2" := VObjectId (user_id bob); "owner" := VObjectId (user_id alice) ]}.

(** ** The routers *)

(** The methods the routers register handlers for; a HEAD request is
    served by the handler of GET.  Other methods are outside the model. *)
Inductive verb := GET | HEAD | POST | PATCH | DELETE.

(** A request as a router sees it: the method, the segments of the path,
    the principal the bearer strategy made of the token ([None] when there
    is no valid token), and the parsed body. *)
Record request := Request {
  req_verb : verb;
  req_path : list string;
  req_user : option user;
  req_body : gmap string (gmap string value)
}.

(** What a router does with a request: nothing (no route of it matches),
    the refusal of [requireToken], or a handler run on the collection. *)
Inductive dispatch :=
| NoRoute
| Unauthorized
| Handled (outcome : gmap string (gmap string value) * settled response).

(** [requireToken] in front of a handler: "a token MUST be passed for that
    route to be available; it will also set [req.user]". *)
Definition requireToken (req : request) (handler : user -> promise response)
  (st : gmap string (gmap string value)) : dispatch :=
  match req_user req with
  | None => Unauthorized
  | Some u => Handled (handler u st)
  end.

Definition lowerAscii (c : Ascii.ascii) : Ascii.ascii :=
  let n := Ascii.nat_of_ascii c in
  if (65 <=? n)%nat && (n <=? 90)%nat then Ascii.ascii_of_nat (n + 32) else c.

Fixpoint lower (s : string) : string :=
  match s with
  | EmptyString => EmptyString
  | String c rest => String (lowerAscii c) (lower rest)
  end.

(** A segment of the path against a literal of a route; an Express router
    does not distinguish case unless told to. *)
Definition matches (segment literal : string) : bool := String.eqb (lower segment) literal.

Section Router.

Variable key : string.
Variable sch : schema.

(** The member of the body the create handler writes the owner to. *)
Variable target : string.

(** The first segment of the routes: the one of INDEX, SHOW, CREATE and
    UPDATE, and the one of DESTROY. *)
Variable collectionPath : string.
Variable destroyPath : string.

(** The five [router.<verb>(path, ...)] registrations of a routes file;
    [:id] takes the second segment.  UPDATE is registered with
    [removeBlanks] and without [requireToken]. *)
Definition router (newId : oid) (req : request) (st : gmap string (gmap string value))
  : dispatch :=
  match req_verb req, req_path req with
  | (GET | HEAD), [p] =>
      if matches p collectionPath then requireToken req (fun _ => index key) st
      else NoRoute
  | (GET | HEAD), [p; id] =>
      if matches p collectionPath then requireToken req (fun _ => show key id) st
      else NoRoute
  | POST, [p] =>
      if matches p collectionPath
      then requireToken req (fun u => createAs key sch target newId u (req_body req)) st
      else NoRoute
  | PATCH, [p; id] =>
      if matches p collectionPath then Handled (update key id (req_body req) st)
      else NoRoute
  | DELETE, [p; id] =>
      if matches p destroyPath then requireToken req (fun u => destroy u id) st
      else NoRoute
  | _, _ => NoRoute
  end.

End Router.

(** [chatroom_routes.js]: the routes of [/chatrooms], and DESTROY under
    [/games/:id]. *)
Definition chatroomRouter (sch : schema) := router "chatroom" sch "game" "chatrooms" "games".

(** The routes file of the projects: all five routes under [/projects]. *)
Definition projectRouter (sch : schema) := router "project" sch "project" "projects" "projects".

(** The same request with another principal, or none. *)
Definition withUser (ou : option user) (req : request) : request :=
  Request (req_verb req) (req_path req) ou (req_body req).

(** * Properties *)

(** ** The store and the helpers *)

Lemma lookup_castPaths (m : gmap string value) (path : string) :
  Model.castPaths m !! path = Model.castAt path <$> m !! path.
Proof.
  unfold Model.castPaths. rewrite map_lookup_imap.
  destruct (m !! path); reflexivity.
Qed.

Lemma lookup_cast (m : gmap string value) (path : string) :
  Model.cast m !! path = Model.castAt path <$> Model.setPaths m !! path.
Proof. apply lookup_castPaths. Qed.

(** An update without [$set] sets its own keys. *)
Lemma setPaths_plain (m : gmap string value) :
  m !! "$set" = None -> Model.setPaths m = m.
Proof.
  intros H. unfold Model.setPaths. rewrite H, (delete_id _ _ H).
  apply (right_id_L ∅ (∪)).
Qed.

Lemma plainKeys_no_set (m : gmap string value) : plainKeys m -> m !! "$set" = None.
Proof.
  intros Hplain. destruct (m !! "$set") as [v|] eqn:E; [|reflexivity].
  assert (plainPath "$set" = true) as Habs by (apply Hplain; rewrite E; eauto).
  discriminate Habs.
Qed.

(** A path that an update without [$set] does not name keeps its value. *)
Lemma lookup_update_frame (payload attrs : gmap string value) (path : string) :
  payload !! "$set" = None ->
  payload !! path = None ->
  (Model.cast payload ∪ attrs) !! path = attrs !! path.
Proof.
  intros Hset H. apply lookup_union_r.
  rewrite lookup_cast, (setPaths_plain _ Hset), H. reflexivity.
Qed.

(** A path that an update without [$set] names holds the converted value. *)
Lemma lookup_update_set (payload attrs : gmap string value) (path : string) (v : value) :
  payload !! "$set" = None ->
  payload !! path = Some v ->
  (Model.cast payload ∪ attrs) !! path = Some (Model.castAt path v).
Proof.
  intros Hset H. apply lookup_union_Some_l.
  rewrite lookup_cast, (setPaths_plain _ Hset), H. reflexivity.
Qed.

Lemma lookup_removeBlanks (b : gmap string (gmap string value)) (key : string) :
  removeBlanks b !! key
  = omap (fun v : value => if isBlank v then None else Some v) <$> b !! key.
Proof. unfold removeBlanks. apply lookup_fmap. Qed.

(** The update route has a payload exactly when the body has the member. *)
Lemma updatePayload_Some (key : string) (b : gmap string (gmap string value))
  (raw : gmap string value) :
  b !! key = Some raw ->
  updatePayload key b
  = Some (delete "owner" (omap (fun v : value => if isBlank v then None else Some v) raw)).
Proof. intros H. unfold updatePayload. rewrite lookup_removeBlanks, H. reflexivity. Qed.

Lemma updatePayload_None (key : string) (b : gmap string (gmap string value)) :
  b !! key = None -> updatePayload key b = None.
Proof. intros H. unfold updatePayload. rewrite lookup_removeBlanks, H. reflexivity. Qed.

(** The payload that reaches the store has no key [owner]. *)
Lemma updatePayload_owner (key : string) (b : gmap string (gmap string value))
  (payload : gmap string value) :
  updatePayload key b = Some payload -> payload !! "owner" = None.
Proof.
  unfold updatePayload. destruct (removeBlanks b !! key); simpl; intros [= <-].
  apply lookup_delete_eq.
Qed.

(** The payload that reaches the store has the keys of the body's member,
    less [owner] and the blank ones. *)
Lemma lookup_updatePayload (key : string) (b : gmap string (gmap string value))
  (raw payload : gmap string value) (k : string) (v : value) :
  b !! key = Some raw ->
  updatePayload key b = Some payload ->
  payload !! k = Some v ->
  raw !! k = Some v /\ k <> "owner" /\ v <> VStr "".
Proof.
  intros Hb Hp Hk. rewrite (updatePayload_Some _ _ _ Hb) in Hp. injection Hp as <-.
  apply lookup_delete_Some in Hk as [Hne Hk].
  rewrite lookup_omap in Hk. destruct (raw !! k) as [w|]; [|discriminate Hk].
  simpl in Hk. destruct (isBlank w) eqn:Hblank; [discriminate Hk|].
  injection Hk as ->. split; [reflexivity|]. split; [congruence|].
  intros ->. discriminate Hblank.
Qed.

Lemma updatePayload_plainKeys (key : string) (b : gmap string (gmap string value))
  (raw payload : gmap string value) :
  b !! key = Some raw ->
  updatePayload key b = Some payload ->
  plainKeys raw -> plainKeys payload.
Proof.
  intros Hb Hp Hplain k [v Hk]. apply Hplain.
  destruct (lookup_updatePayload _ _ _ _ _ _ Hb Hp Hk) as [Hraw _].
  rewrite Hraw. eauto.
Qed.

(** ** The routes, case by case *)

Lemma show_cases (key : string) (id : string) (st : gmap string (gmap string value)) :
  show key id st =
  match st !! id with
  | None => (st, Rejected NotFound)
  | Some attrs => (st, Fulfilled (Response 200 (One key (Doc id attrs))))
  end.
Proof.
  unfold show, mbind, promise_bind, andThen, Model.findById.
  destruct (st !! id); reflexivity.
Qed.

Lemma destroy_cases (u : user) (id : string) (st : gmap string (gmap string value)) :
  destroy u id st =
  match st !! id with
  | None => (st, Rejected NotFound)
  | Some attrs =>
      if owns u (Doc id attrs)
      then (delete id st, Fulfilled (Response 204 NoContent))
      else (st, Rejected NotOwner)
  end.
Proof.
  unfold destroy, mbind, promise_bind, andThen, Model.findById.
  destruct (st !! id) as [attrs|]; simpl; [|reflexivity].
  unfold requireOwnership. destruct (owns u (Doc id attrs)); reflexivity.
Qed.

Lemma createAs_cases (key : string) (sch : schema) (target : string) (newId : string)
  (u : user) (b st : gmap string (gmap string value)) :
  createAs key sch target newId u b st =
  match b !! target with
  | None => (st, Rejected TypeError)
  | Some payload =>
      let attrs :=
        default ∅ (<[target := <["owner" := VStr (user_id u)]> payload]> b !! key) in
      if Model.validate sch attrs && Model.castablePaths attrs
      then (<[newId := Model.castPaths attrs]> st,
            Fulfilled (Response 201 (One key (Doc newId (Model.castPaths attrs)))))
      else (st, Rejected ValidationError)
  end.
Proof.
  unfold createAs. destruct (b !! target) as [payload|]; [|reflexivity].
  unfold mbind, promise_bind, andThen, Model.create; simpl.
  destruct (Model.validate sch _ && Model.castablePaths _); reflexivity.
Qed.

Lemma findOneAndUpdate_cases (id : string) (payload attrs : gmap string value)
  (st : gmap string (gmap string value)) :
  st !! id = Some attrs ->
  Model.findOneAndUpdate id payload st =
  if Model.castable payload
  then (<[id := Model.cast payload ∪ attrs]> st,
        Fulfilled (Some (Doc id (Model.cast payload ∪ attrs))))
  else (st, Rejected CastError).
Proof. intros Hid. unfold Model.findOneAndUpdate. rewrite Hid. reflexivity. Qed.

Lemma authorizeUpdate_cases (id : string) (payload attrs : gmap string value)
  (st : gmap string (gmap string value)) :
  st !! id = Some attrs ->
  authorizeUpdate id payload (Doc id attrs) st =
  match attrs !! "user2" with
  | None => (Updated <$> Model.findOneAndUpdate id payload) st
  | Some _ =>
      if mismatch payload (Doc id attrs) then (st, Fulfilled (Message notInvolved))
      else (Updated <$> Model.findOneAndUpdate id payload) st
  end.
Proof.
  intros Hid. unfold authorizeUpdate; simpl.
  destruct (attrs !! "user2") as [u2|]; [|reflexivity].
  destruct (mismatch payload (Doc id attrs)); reflexivity.
Qed.

(** The store never answers with a message of the route. *)
Lemma handed_over_not_message (id : string) (payload : gmap string value)
  (st st' : gmap string (gmap string value)) (m : string) :
  (Updated <$> Model.findOneAndUpdate id payload) st <> (st', Fulfilled (Message m)).
Proof.
  unfold fmap, promise_fmap, andThen, resolve.
  destruct (Model.findOneAndUpdate id payload st) as [s [result|e]]; intros [=].
Qed.

(** What the route answers once the callback has handed the update to the
    store. *)
Lemma update_handed_over (key : string) (id : string) (payload : gmap string value)
  (st : gmap string (gmap string value)) :
  andThen
    (fun result : updateResult =>
       andThen (fun resource' : document => respond 201 (One key resource'))
         (toObject result))
    (Updated <$> Model.findOneAndUpdate id payload) st
  = answerUpdate key (Model.findOneAndUpdate id payload st).
Proof.
  unfold fmap, promise_fmap, andThen, answerUpdate.
  destruct (Model.findOneAndUpdate id payload st) as [st' [[d|]|e]]; reflexivity.
Qed.

Lemma update_cases (key : string) (id : string) (b st : gmap string (gmap string value)) :
  update key id b st =
  match updatePayload key b with
  | None => (st, Rejected TypeError)
  | Some payload =>
      match st !! id with
      | None => (st, Rejected NotFound)
      | Some attrs =>
          match attrs !! "user2" with
          | None => answerUpdate key (Model.findOneAndUpdate id payload st)
          | Some _ =>
              if mismatch payload (Doc id attrs) then (st, Rejected TypeError)
              else answerUpdate key (Model.findOneAndUpdate id payload st)
          end
      end
  end.
Proof.
  unfold update. destruct (updatePayload key b) as [payload|]; [|reflexivity].
  unfold mbind, promise_bind. unfold andThen at 1. unfold Model.findById.
  destruct (st !! id) as [attrs|] eqn:Hid; simpl; [|reflexivity].
  unfold andThen at 1, resolve.
  pose proof (update_handed_over key id payload st) as Hover.
  unfold andThen at 1 in Hover. unfold andThen at 1.
  rewrite (authorizeUpdate_cases _ _ _ _ Hid).
  destruct (attrs !! "user2") as [u2|]; [|exact Hover].
  destruct (mismatch payload (Doc id attrs)); [reflexivity | exact Hover].
Qed.

(** On an existing resource, a request that has a payload fails with the
    collection untouched or goes through. *)
Lemma update_existing (key : string) (id : string)
  (b st : gmap string (gmap string value)) (payload attrs : gmap string value) :
  st !! id = Some attrs ->
  updatePayload key b = Some payload ->
  (exists e, update key id b st = (st, Rejected e))
  \/ update key id b st = updated key id payload attrs st.
Proof.
  intros Hid Hp. rewrite update_cases, Hp, Hid.
  rewrite (findOneAndUpdate_cases _ _ _ _ Hid).
  assert ((exists e, answerUpdate key
                       (if Model.castable payload
                        then (<[id := Model.cast payload ∪ attrs]> st,
                              Fulfilled (Some (Doc id (Model.cast payload ∪ attrs))))
                        else (st, Rejected CastError)) = (st, Rejected e))
          \/ answerUpdate key
               (if Model.castable payload
                then (<[id := Model.cast payload ∪ attrs]> st,
                      Fulfilled (Some (Doc id (Model.cast payload ∪ attrs))))
                else (st, Rejected CastError)) = updated key id payload attrs st) as Hstore.
  { destruct (Model.castable payload); [right; reflexivity | left; eauto]. }
  destruct (attrs !! "user2"); [|exact Hstore].
  destruct (mismatch payload (Doc id attrs)); [left; eauto | exact Hstore].
Qed.

(** The test of the mismatch branch, by its two comparisons. *)
Lemma mismatch_true (payload : gmap string value) (resource : document) :
  mismatch payload resource = true <->
  strictEq (payload !! "user1") (doc_attrs resource !! "user1") = false
  /\ strictEq (payload !! "user2") (doc_attrs resource !! "user2") = false.
Proof.
  unfold mismatch. rewrite andb_true_iff, !negb_true_iff. reflexivity.
Qed.

Lemma mismatch_false (payload : gmap string value) (resource : document) :
  mismatch payload resource = false <->
  strictEq (payload !! "user1") (doc_attrs resource !! "user1") = true
  \/ strictEq (payload !! "user2") (doc_attrs resource !! "user2") = true.
Proof.
  unfold mismatch. rewrite andb_false_iff, !negb_false_iff. reflexivity.
Qed.

(** A value read from a request body is never strictly equal to an
    identifier object of a document. *)
Lemma strictEq_ObjectId (a : option value) (hex : string) :
  strictEq a (Some (VObjectId hex)) = false.
Proof. destruct a as [[]|]; reflexivity. Qed.

(** A payload that names participants is one the store converts. *)
Lemma namesParticipants_castable (payload : gmap string value) :
  payload !! "owner" = None -> namesParticipants payload ->
  payload !! "$set" = None /\ Model.castable payload = true.
Proof.
  intros Hown Hnames.
  assert (payload !! "$set" = None) as Hset.
  { destruct (payload !! "$set") as [v|] eqn:E; [|reflexivity].
    destruct (Hnames _ _ E) as [[[H | H] _] | [H _]]; discriminate H. }
  split; [exact Hset|].
  unfold Model.castable. rewrite Hset, (setPaths_plain _ Hset).
  unfold Model.castablePaths, referencePaths. simpl.
  assert (forall k, k = "user1" \/ k = "user2" ->
                    Model.castableRef (payload !! k) = true) as Href.
  { intros k Hk. destruct (payload !! k) as [v|] eqn:E; [|reflexivity].
    destruct (Hnames _ _ E) as [[_ (s & -> & Hs)] | [-> _]].
    - exact Hs.
    - destruct Hk as [Hk | Hk]; discriminate Hk. }
  rewrite (Href "user1"), (Href "user2"), Hown by auto. reflexivity.
Qed.

(** ** The update route: what it writes *)

(** C5, on a payload with an update operator.  The route removes the key
    [owner] of the payload and nothing else: an [owner] under [$set]
    reaches the store, and the owner of alice's chatroom becomes carol. *)
Theorem update_operator_changes_owner :
  soloStore !! roomId = Some soloRoom
  /\ soloRoom !! "owner" = Some (VObjectId (user_id alice))
  /\ updatePayload "chatroom" grabBody
     = Some {[ "$set" := VObj [("owner", VStr (user_id carol))] ]}
  /\ ChatroomRoutes.update roomId grabBody soloStore
     = ({[ roomId := grabbedRoom ]},
        Fulfilled (Response 201 (One "chatroom" (Doc roomId grabbedRoom))))
  /\ grabbedRoom !! "owner" = Some (VObjectId (user_id carol))
  /\ user_id carol <> user_id alice.
Proof.
  split; [reflexivity|]. split; [reflexivity|]. split; [reflexivity|].
  split; [reflexivity|]. split; [reflexivity|]. discriminate.
Qed.

(** C6, as the code has it.  When the payload of an update binds a field
    to the empty string, the sanitizer has removed the field from the
    payload the route hands to the store; and when the payload has no
    update operator and no dotted path, and the field is not the
    [updatedAt] the store maintains, the field of the stored document
    reads after the update as it read before. *)
Theorem update_drops_blank_field (key : string) (id : string)
  (b st : gmap string (gmap string value)) (raw attrs : gmap string value)
  (field : string) :
  st !! id = Some attrs ->
  b !! key = Some raw ->
  raw !! field = Some (VStr "") ->
  (exists clean, removeBlanks b !! key = Some clean /\ clean !! field = None)
  /\ (exists payload, updatePayload key b = Some payload /\ payload !! field = None)
  /\ (plainKeys raw -> field <> "updatedAt" ->
      exists attrs',
        (update key id b st).1 !! id = Some attrs' /\ attrs' !! field = attrs !! field).
Proof.
  intros Hid Hb Hblank.
  pose proof (updatePayload_Some _ _ _ Hb) as Hp.
  assert (omap (fun v : value => if isBlank v then None else Some v) raw !! field = None)
    as Hclean.
  { rewrite lookup_omap, Hblank. reflexivity. }
  assert (delete "owner"
            (omap (fun v : value => if isBlank v then None else Some v) raw) !! field = None)
    as Hpayload.
  { rewrite lookup_delete. case_decide; [reflexivity | exact Hclean]. }
  split; [|split].
  - eexists. split; [|exact Hclean]. rewrite lookup_removeBlanks, Hb. reflexivity.
  - eexists. split; [exact Hp | exact Hpayload].
  - intros Hplain _.
    pose proof (plainKeys_no_set _ (updatePayload_plainKeys _ _ _ _ Hb Hp Hplain)) as Hset.
    destruct (update_existing _ _ _ _ _ _ Hid Hp) as [[e ->] | ->]; simpl.
    + eauto.
    + eexists. split; [apply lookup_insert_eq|].
      apply lookup_update_frame; [exact Hset | exact Hpayload].
Qed.

Lemma update_drops_blank_field_witness :
  soloStore !! roomId = Some soloRoom
  /\ joinBody !! "chatroom"
     = Some {[ "user2" := VStr (user_id carol); "owner" := VStr (user_id carol);
               "title" := VStr "" ]}
  /\ (exists clean, removeBlanks joinBody !! "chatroom" = Some clean
                    /\ clean !! "title" = None)
  /\ (exists payload, updatePayload "chatroom" joinBody = Some payload
                      /\ payload !! "title" = None)
  /\ (exists attrs',
        (update "chatroom" roomId joinBody soloStore).1 !! roomId = Some attrs'
        /\ attrs' !! "title" = soloRoom !! "title").
Proof.
  split; [reflexivity|].
  split; [reflexivity|].
  destruct (update_drops_blank_field "chatroom" roomId joinBody soloStore
              {[ "user2" := VStr (user_id carol); "owner" := VStr (user_id carol);
                 "title" := VStr "" ]} soloRoom "title")
    as (Hclean & Hpayload & Hkept); try reflexivity.
  split; [exact Hclean|]. split; [exact Hpayload|].
  apply Hkept; [|discriminate].
  intros k [v Hk].
  apply lookup_insert_Some in Hk as [[<- _] | [_ Hk]]; [reflexivity|].
  apply lookup_insert_Some in Hk as [[<- _] | [_ Hk]]; [reflexivity|].
  apply lookup_singleton_Some in Hk as [<- _]. reflexivity.
Defined.

(** C6 as it is written fails: the payload binds [user1] to the empty
    string, the sanitizer removes that binding, and the [user1] of the
    stored document is another after the update all the same, set through
    the [$set] of the same payload. *)
Lemma update_blank_field_overwritten :
  soloStore !! roomId = Some soloRoom
  /\ overwriteBody !! "chatroom" ≫= (.!! "user1") = Some (VStr "")
  /\ updatePayload "chatroom" overwriteBody
     = Some {[ "$set" := VObj [("user1", VStr (user_id carol))] ]}
  /\ soloRoom !! "user1" = Some (VObjectId (user_id alice))
  /\ (ChatroomRoutes.update roomId overwriteBody soloStore).1 !! roomId ≫= (.!! "user1")
     = Some (VObjectId (user_id carol))
  /\ user_id carol <> user_id alice.
Proof.
  split; [reflexivity|]. split; [reflexivity|]. split; [reflexivity|].
  split; [reflexivity|]. split; [reflexivity|]. discriminate.
Qed.




(** C8.  An update that succeeds answers with status 201 and a body that
    holds, under the key of the resource, the document as it is stored
    once the update has been applied: the document of before with the
    paths of the payload set. *)
Theorem update_success_response (key : string) (id : string)
  (b st st' : gmap string (gmap string value)) (r : response) :
  update key id b st = (st', Fulfilled r) ->
  status r = 201
  /\ exists payload attrs,
       updatePayload key b = Some payload
       /\ st !! id = Some attrs
       /\ st' !! id = Some (Model.cast payload ∪ attrs)
       /\ sent r = One key (Doc id (Model.cast payload ∪ attrs)).
Proof.
  intros Hrun.
  destruct (updatePayload key b) as [payload|] eqn:Hp;
    [|rewrite update_cases, Hp in Hrun; discriminate Hrun].
  destruct (st !! id) as [attrs|] eqn:Hid;
    [|rewrite update_cases, Hp, Hid in Hrun; discriminate Hrun].
  destruct (update_existing _ _ _ _ _ _ Hid Hp) as [[e Hfail] | Hdone];
    rewrite Hrun in *; [discriminate Hfail|].
  unfold updated in Hdone. injection Hdone as -> ->.
  split; [reflexivity|]. exists payload, attrs.
  split; [reflexivity|]. split; [reflexivity|].
  split; [apply lookup_insert_eq | reflexivity].
Qed.

Lemma update_success_response_witness :
  update "chatroom" roomId joinBody soloStore
  = ({[ roomId := joinedRoom ]},
     Fulfilled (Response 201 (One "chatroom" (Doc roomId joinedRoom))))
  /\ status (Response 201 (One "chatroom" (Doc roomId joinedRoom))) = 201
  /\ exists payload attrs,
       updatePayload "chatroom" joinBody = Some payload
       /\ soloStore !! roomId = Some attrs
       /\ ({[ roomId := joinedRoom ]} : gmap string (gmap string value)) !! roomId
          = Some (Model.cast payload ∪ attrs)
       /\ sent (Response 201 (One "chatroom" (Doc roomId joinedRoom)))
          = One "chatroom" (Doc roomId (Model.cast payload ∪ attrs)).
Proof.
  split; [reflexivity|].
  apply (update_success_response "chatroom" roomId joinBody soloStore
           {[ roomId := joinedRoom ]}
           (Response 201 (One "chatroom" (Doc roomId joinedRoom)))).
  reflexivity.
Defined.

(** ** The update route: the two-party branch *)

(** C2, as the code has it.  On an existing resource whose [user2] is set,
    when the [user1] and the [user2] of the payload both differ from the
    stored ones, the callback of the update route returns the plain string
    'You are not involved in this project' instead of a structured
    rejection, and the update is not performed: the collection is after
    the request what it was before. *)
Theorem update_mismatch_returns_message (key : string) (id : string)
  (b st : gmap string (gmap string value)) (payload attrs : gmap string value) :
  st !! id = Some attrs ->
  is_Some (attrs !! "user2") ->
  updatePayload key b = Some payload ->
  strictEq (payload !! "user1") (attrs !! "user1") = false ->
  strictEq (payload !! "user2") (attrs !! "user2") = false ->
  authorizeUpdate id payload (Doc id attrs) st
  = (st, Fulfilled (Message "You are not involved in this project"))
  /\ (update key id b st).1 = st.
Proof.
  intros Hid [u2 Hu2] Hp H1 H2.
  assert (mismatch payload (Doc id attrs) = true) as Hm.
  { apply mismatch_true. split; assumption. }
  split.
  - rewrite (authorizeUpdate_cases _ _ _ _ Hid), Hu2, Hm. reflexivity.
  - rewrite update_cases, Hp, Hid, Hu2, Hm. reflexivity.
Qed.

Lemma update_mismatch_returns_message_witness :
  pairStore !! roomId = Some pairRoom
  /\ is_Some (pairRoom !! "user2")
  /\ updatePayload "chatroom" intruderBody
     = Some {[ "title" := VStr "taken over"; "user1" := VStr (user_id carol);
               "user2" := VStr (user_id carol) ]}
  /\ authorizeUpdate roomId
       {[ "title" := VStr "taken over"; "user1" := VStr (user_id carol);
          "user2" := VStr (user_id carol) ]} (Doc roomId pairRoom) pairStore
     = (pairStore, Fulfilled (Message "You are not involved in this project"))
  /\ (update "chatroom" roomId intruderBody pairStore).1 = pairStore.
Proof.
  split; [reflexivity|].
  split; [eexists; reflexivity|].
  split; [reflexivity|].
  apply (update_mismatch_returns_message "chatroom" roomId intruderBody pairStore
           {[ "title" := VStr "taken over"; "user1" := VStr (user_id carol);
              "user2" := VStr (user_id carol) ]} pairRoom);
    first [ reflexivity | eexists; reflexivity ].
Defined.

(** C2 as it is written fails: on a resource of alice and bob, a payload
    that names carol for both participants gets the string from the
    callback, and the collection after the request is the one before it,
    which is not the collection the update would have left: the title of
    the payload is not on the document. *)
Lemma update_mismatch_not_applied :
  pairStore !! roomId = Some pairRoom
  /\ is_Some (pairRoom !! "user2")
  /\ (exists payload,
        updatePayload "chatroom" intruderBody = Some payload
        /\ strictEq (payload !! "user1") (pairRoom !! "user1") = false
        /\ strictEq (payload !! "user2") (pairRoom !! "user2") = false
        /\ authorizeUpdate roomId payload (Doc roomId pairRoom) pairStore
           = (pairStore, Fulfilled (Message "You are not involved in this project"))
        /\ (ChatroomRoutes.update roomId intruderBody pairStore).1
           <> (Model.findOneAndUpdate roomId payload pairStore).1)
  /\ (ChatroomRoutes.update roomId intruderBody pairStore).1 = pairStore
  /\ pairStore !! roomId ≫= (.!! "title") = None.
Proof.
  split; [reflexivity|].
  split; [eexists; reflexivity|].
  split.
  - exists {[ "title" := VStr "taken over"; "user1" := VStr (user_id carol);
              "user2" := VStr (user_id carol) ]}.
    repeat split; try reflexivity.
    intros H.
    apply (f_equal (fun m : gmap string (gmap string value) =>
                      m !! roomId ≫= (.!! "title"))) in H.
    revert H.
    change (None <> Some (VStr "taken over")).
    discriminate.
  - split; reflexivity.
Qed.

(** C9.  On an existing resource whose [user2] is set, when the [user1]
    and the [user2] of the payload both differ from the stored ones, the
    collection is left as it was and there is no success response: the
    string the callback returns reaches the continuation that calls
    [toObject] on it, the call throws, and the request ends with that
    error handed to [next]. *)
Theorem update_mismatch_fails (key : string) (id : string)
  (b st : gmap string (gmap string value)) (payload attrs : gmap string value) :
  st !! id = Some attrs ->
  is_Some (attrs !! "user2") ->
  updatePayload key b = Some payload ->
  strictEq (payload !! "user1") (attrs !! "user1") = false ->
  strictEq (payload !! "user2") (attrs !! "user2") = false ->
  update key id b st = (st, Rejected TypeError)
  /\ (exists text,
        authorizeUpdate id payload (Doc id attrs) st = (st, Fulfilled (Message text))
        /\ toObject (Message text) st = (st, Rejected TypeError))
  /\ (forall st' r, update key id b st <> (st', Fulfilled r)).
Proof.
  intros Hid [u2 Hu2] Hp H1 H2.
  assert (mismatch payload (Doc id attrs) = true) as Hm.
  { apply mismatch_true. split; assumption. }
  assert (update key id b st = (st, Rejected TypeError)) as Hupd.
  { rewrite update_cases, Hp, Hid, Hu2, Hm. reflexivity. }
  split; [exact Hupd|]. split.
  - exists notInvolved. split; [|reflexivity].
    rewrite (authorizeUpdate_cases _ _ _ _ Hid), Hu2, Hm. reflexivity.
  - intros st' r. rewrite Hupd. discriminate.
Qed.

Lemma update_mismatch_fails_witness :
  pairStore !! roomId = Some pairRoom
  /\ update "chatroom" roomId intruderBody pairStore = (pairStore, Rejected TypeError)
  /\ (exists text,
        authorizeUpdate roomId
          {[ "title" := VStr "taken over"; "user1" := VStr (user_id carol);
             "user2" := VStr (user_id carol) ]} (Doc roomId pairRoom) pairStore
        = (pairStore, Fulfilled (Message text))
        /\ toObject (Message text) pairStore = (pairStore, Rejected TypeError))
  /\ (forall st' r,
        update "chatroom" roomId intruderBody pairStore <> (st', Fulfilled r)).
Proof.
  split; [reflexivity|].
  apply (update_mismatch_fails "chatroom" roomId intruderBody pairStore
           {[ "title" := VStr "taken over"; "user1" := VStr (user_id carol);
              "user2" := VStr (user_id carol) ]} pairRoom);
    first [ reflexivity | eexists; reflexivity ].
Defined.

(** C10, as the code has it.  On an existing resource whose [user1] and
    [user2] are both set, a sanitized payload without [user1] and without
    [user2] takes the mismatch branch, an absent field being different
    from the stored value on both sides; and a payload stays out of the
    mismatch branch exactly when its [user1] is strictly equal to the
    stored [user1] or its [user2] to the stored [user2]. *)
Theorem update_mismatch_branch (key : string) (id : string)
  (b st : gmap string (gmap string value)) (payload attrs : gmap string value) :
  st !! id = Some attrs ->
  is_Some (attrs !! "user1") ->
  is_Some (attrs !! "user2") ->
  updatePayload key b = Some payload ->
  (payload !! "user1" = None -> payload !! "user2" = None ->
     authorizeUpdate id payload (Doc id attrs) st
     = (st, Fulfilled (Message "You are not involved in this project")))
  /\ (authorizeUpdate id payload (Doc id attrs) st
      <> (st, Fulfilled (Message "You are not involved in this project"))
      <-> strictEq (payload !! "user1") (attrs !! "user1") = true
          \/ strictEq (payload !! "user2") (attrs !! "user2") = true).
Proof.
  intros Hid [u1 Hu1] [u2 Hu2] Hp.
  pose proof (mismatch_false payload (Doc id attrs)) as Hfalse. simpl in Hfalse.
  pose proof (mismatch_true payload (Doc id attrs)) as Htrue. simpl in Htrue.
  rewrite <- Hfalse. clear Hfalse.
  rewrite (authorizeUpdate_cases _ _ _ _ Hid).
  split.
  - intros Hp1 Hp2.
    assert (mismatch payload (Doc id attrs) = true) as Hm.
    { apply Htrue. rewrite Hp1, Hp2, Hu1, Hu2. split; reflexivity. }
    rewrite Hu2, Hm. reflexivity.
  - rewrite Hu2.
    destruct (mismatch payload (Doc id attrs)); split; intros H.
    + exfalso. apply H. reflexivity.
    + discriminate H.
    + reflexivity.
    + apply handed_over_not_message.
Qed.

Lemma update_mismatch_branch_witness :
  (pairStore !! roomId = Some pairRoom
   /\ updatePayload "chatroom" renameBody = Some {[ "title" := VStr "renamed" ]}
   /\ authorizeUpdate roomId {[ "title" := VStr "renamed" ]} (Doc roomId pairRoom) pairStore
      = (pairStore, Fulfilled (Message "You are not involved in this project")))
  /\ (updatePayload "chatroom" openBody
      = Some {[ "title" := VStr "open"; "user2" := VNull ]}
      /\ strictEq (Some VNull) (openRoom !! "user2") = true
      /\ authorizeUpdate roomId {[ "title" := VStr "open"; "user2" := VNull ]}
           (Doc roomId openRoom) {[ roomId := openRoom ]}
         <> ({[ roomId := openRoom ]},
             Fulfilled (Message "You are not involved in this project"))).
Proof.
  split.
  - split; [reflexivity|]. split; [reflexivity|].
    apply (update_mismatch_branch "chatroom" roomId renameBody pairStore
             {[ "title" := VStr "renamed" ]} pairRoom);
      first [ reflexivity | eexists; reflexivity ].
  - split; [reflexivity|]. split; [reflexivity|].
    apply (update_mismatch_branch "chatroom" roomId openBody {[ roomId := openRoom ]}
             {[ "title" := VStr "open"; "user2" := VNull ]} openRoom);
      first [ reflexivity | eexists; reflexivity | right; reflexivity ].
Defined.

(** C10 as it is written fails where the stored [user1] is unset: the
    payload has neither [user1] nor [user2], the absent [user1] is equal to
    the absent stored one, and the request stays out of the mismatch
    branch and is answered by the store. *)
Lemma update_mismatch_branch_without_user1 :
  ({[ roomId := orphanRoom ]} : gmap string (gmap string value)) !! roomId
  = Some orphanRoom
  /\ is_Some (orphanRoom !! "user2")
  /\ orphanRoom !! "user1" = None
  /\ (exists payload,
        updatePayload "chatroom" renameBody = Some payload
        /\ payload !! "user1" = None
        /\ payload !! "user2" = None
        /\ authorizeUpdate roomId payload (Doc roomId orphanRoom) {[ roomId := orphanRoom ]}
           <> ({[ roomId := orphanRoom ]},
               Fulfilled (Message "You are not involved in this project")))
  /\ exists st' r,
       ChatroomRoutes.update roomId renameBody {[ roomId := orphanRoom ]}
       = (st', Fulfilled r).
Proof.
  split; [reflexivity|]. split; [eexists; reflexivity|]. split; [reflexivity|].
  split.
  - exists {[ "title" := VStr "renamed" ]}.
    split; [reflexivity|]. split; [reflexivity|]. split; [reflexivity|].
    intros H. apply (f_equal snd) in H. revert H.
    change (Fulfilled
              (Updated
                 (Some (Doc roomId (Model.cast {[ "title" := VStr "renamed" ]} ∪ orphanRoom))))
            <> Fulfilled (Message "You are not involved in this project")).
    discriminate.
  - do 2 eexists. reflexivity.
Qed.

(** X2.  On an existing resource whose [user1] and [user2] are both held as
    identifier objects, the test of the mismatch branch is true for every
    payload, so that every update of the resource ends with a TypeError and
    the collection as it was, whatever the body. *)
Theorem update_on_references_fails (key : string) (id : string)
  (b st : gmap string (gmap string value)) (attrs : gmap string value)
  (h1 h2 : string) :
  st !! id = Some attrs ->
  attrs !! "user1" = Some (VObjectId h1) ->
  attrs !! "user2" = Some (VObjectId h2) ->
  (forall payload, mismatch payload (Doc id attrs) = true)
  /\ update key id b st = (st, Rejected TypeError).
Proof.
  intros Hid H1 H2.
  assert (forall payload, mismatch payload (Doc id attrs) = true) as Hm.
  { intros payload. apply mismatch_true. simpl. rewrite H1, H2.
    split; apply strictEq_ObjectId. }
  split; [exact Hm|].
  rewrite update_cases. destruct (updatePayload key b) as [payload|]; [|reflexivity].
  rewrite Hid, H2, Hm. reflexivity.
Qed.

Lemma update_on_references_fails_witness :
  pairStore !! roomId = Some pairRoom
  /\ (forall payload, mismatch payload (Doc roomId pairRoom) = true)
  /\ update "chatroom" roomId
       {[ "chatroom" := {[ "user1" := VStr (user_id alice);
                           "user2" := VStr (user_id bob) ]} ]} pairStore
     = (pairStore, Rejected TypeError).
Proof.
  split; [reflexivity|].
  apply (update_on_references_fails "chatroom" roomId _ pairStore pairRoom
           (user_id alice) (user_id bob));
    reflexivity.
Defined.

(** ** Lookup and removal *)

(** C3.  A delete of an existing resource by a principal whose id is not
    the stored [owner] fails with NotOwner and leaves the collection as it
    was, so that the document can still be shown with the values it had;
    by the principal the [owner] names, it removes the document and
    answers 204 without content. *)
Theorem destroy_requires_owner (key : string) (u : user) (id : string)
  (st : gmap string (gmap string value)) (attrs : gmap string value) :
  st !! id = Some attrs ->
  (attrs !! "owner" ≫= idText <> Some (user_id u) ->
     destroy u id st = (st, Rejected NotOwner)
     /\ show key id (destroy u id st).1
        = (st, Fulfilled (Response 200 (One key (Doc id attrs)))))
  /\ (attrs !! "owner" ≫= idText = Some (user_id u) ->
        destroy u id st = (delete id st, Fulfilled (Response 204 NoContent))
        /\ (destroy u id st).1 !! id = None
        /\ show key id (destroy u id st).1 = (delete id st, Rejected NotFound)).
Proof.
  intros Hid. rewrite destroy_cases, Hid. unfold owns; simpl. split; intros Hown.
  - rewrite bool_decide_eq_false_2 by exact Hown. simpl.
    split; [reflexivity|]. rewrite show_cases, Hid. reflexivity.
  - rewrite bool_decide_eq_true_2 by exact Hown. simpl.
    split; [reflexivity|]. split; [apply lookup_delete_eq|].
    rewrite show_cases, lookup_delete_eq. reflexivity.
Qed.

Lemma destroy_requires_owner_witness :
  pairStore !! roomId = Some pairRoom
  /\ (destroy bob roomId pairStore = (pairStore, Rejected NotOwner)
      /\ show "chatroom" roomId (destroy bob roomId pairStore).1
         = (pairStore, Fulfilled (Response 200 (One "chatroom" (Doc roomId pairRoom)))))
  /\ (destroy alice roomId pairStore
      = (delete roomId pairStore, Fulfilled (Response 204 NoContent))
      /\ (destroy alice roomId pairStore).1 !! roomId = None
      /\ show "chatroom" roomId (destroy alice roomId pairStore).1
         = (delete roomId pairStore, Rejected NotFound)).
Proof.
  assert (pairStore !! roomId = Some pairRoom) as Hid by (reflexivity).
  split; [exact Hid|]. split.
  - apply (proj1 (destroy_requires_owner "chatroom" bob roomId pairStore pairRoom Hid)).
    change (Some (user_id alice) <> Some (user_id bob)). discriminate.
  - apply (proj2 (destroy_requires_owner "chatroom" alice roomId pairStore pairRoom Hid)).
    reflexivity.
Defined.




(** ** The create routes *)

(** X1.  POST /projects: a project that is stored has the principal as its
    owner, whatever the body said, and it is the one sent back with 201. *)
Theorem project_create_owner (sch : schema) (newId : string) (u : user)
  (b st st' : gmap string (gmap string value)) (r : response) :
  ProjectRoutes.create sch newId u b st = (st', Fulfilled r) ->
  exists attrs,
    st' = <[newId := attrs]> st
    /\ r = Response 201 (One "project" (Doc newId attrs))
    /\ attrs !! "owner" = Some (VObjectId (user_id u)).
Proof.
  unfold ProjectRoutes.create. rewrite createAs_cases.
  destruct (b !! "project") as [payload|]; [|discriminate].
  rewrite lookup_insert_eq. simpl.
  destruct (Model.validate sch _ && Model.castablePaths _); [|discriminate].
  intros [= <- <-]. eexists. split; [reflexivity|]. split; [reflexivity|].
  rewrite lookup_castPaths, lookup_insert_eq. reflexivity.
Qed.

Lemma project_create_owner_witness :
  projectBody !! "project" ≫= (.!! "owner") = Some (VStr (user_id bob))
  /\ exists attrs,
       ({[ roomId := plan ]} : gmap string (gmap string value)) = <[roomId := attrs]> ∅
       /\ Response 201 (One "project" (Doc roomId plan))
          = Response 201 (One "project" (Doc roomId attrs))
       /\ attrs !! "owner" = Some (VObjectId (user_id alice)).
Proof.
  split; [reflexivity|].
  apply (project_create_owner titledSchema roomId alice projectBody ∅).
  reflexivity.
Defined.

(** POST /chatrooms: the owner is written to [req.body.game], so a
    chatroom that is stored has the owner its own payload named. *)
Lemma chatroom_create_owner (sch : schema) (newId : string) (u : user)
  (b st st' : gmap string (gmap string value)) (r : response) :
  ChatroomRoutes.create sch newId u b st = (st', Fulfilled r) ->
  exists attrs,
    st' = <[newId := attrs]> st
    /\ r = Response 201 (One "chatroom" (Doc newId attrs))
    /\ attrs !! "owner"
       = Model.castAt "owner" <$> (b !! "chatroom" ≫= (.!! "owner")).
Proof.
  unfold ChatroomRoutes.create. rewrite createAs_cases.
  destruct (b !! "game") as [payload|]; [|discriminate].
  rewrite lookup_insert_ne by discriminate. simpl.
  destruct (Model.validate sch _ && Model.castablePaths _); [|discriminate].
  intros [= <- <-]. eexists. split; [reflexivity|]. split; [reflexivity|].
  rewrite lookup_castPaths. destruct (b !! "chatroom"); reflexivity.
Qed.

(** C1, on POST /chatrooms.  As alice, with a body that has a [game] member
    and a chatroom payload naming bob as owner, the chatroom is created
    with bob as its owner, under either schema; with the body a client of
    the route would send, which has no [game] member, nothing is created
    and the request ends with a TypeError. *)
Theorem chatroom_create_owner_from_payload :
  ChatroomRoutes.create plainSchema roomId alice forgedBody ∅
  = ({[ roomId := forgedRoom ]},
     Fulfilled (Response 201 (One "chatroom" (Doc roomId forgedRoom))))
  /\ ChatroomRoutes.create titledSchema roomId alice forgedBody ∅
     = ({[ roomId := forgedRoom ]},
        Fulfilled (Response 201 (One "chatroom" (Doc roomId forgedRoom))))
  /\ forgedRoom !! "owner" = Some (VObjectId (user_id bob))
  /\ user_id bob <> user_id alice
  /\ ChatroomRoutes.create plainSchema roomId alice plainBody ∅ = (∅, Rejected TypeError).
Proof.
  split; [reflexivity|].
  split; [reflexivity|].
  split; [reflexivity|].
  split; [discriminate|].
  reflexivity.
Qed.

(** ** A resource from creation on *)

(** Alice creates a project, carol joins it as the second participant,
    and from then on an update naming both participants by their ids is
    refused with the collection untouched. *)
Example project_life :
  ProjectRoutes.create titledSchema roomId alice projectBody ∅
  = ({[ roomId := plan ]}, Fulfilled (Response 201 (One "project" (Doc roomId plan))))
  /\ ProjectRoutes.update roomId {[ "project" := {[ "user2" := VStr (user_id carol) ]} ]}
       {[ roomId := plan ]}
     = ({[ roomId := sharedPlan ]},
        Fulfilled (Response 201 (One "project" (Doc roomId sharedPlan))))
  /\ ProjectRoutes.update roomId
       {[ "project" := {[ "title" := VStr "plan B"; "user1" := VStr (user_id alice);
                          "user2" := VStr (user_id carol) ]} ]}
       {[ roomId := sharedPlan ]}
     = ({[ roomId := sharedPlan ]}, Rejected TypeError).
Proof. repeat split; reflexivity. Qed.

(** * Further properties of the routes *)

(** ** Reading the collection *)

(** ** Reading the collection *)

Lemma index_cases (key : string) (st : gmap string (gmap string value)) :
  index key st
  = (st, Fulfilled
           (Response 200
              (Many (key ++ "s") ((fun '(i, a) => Doc i a) <$> map_to_list st)))).
Proof. reflexivity. Qed.

Lemma elem_of_documents (st : gmap string (gmap string value)) (d : document) :
  d ∈ ((fun '(i, a) => Doc i a) <$> map_to_list st : list document)
  <-> st !! doc_id d = Some (doc_attrs d).
Proof.
  rewrite list_elem_of_fmap. split.
  - intros [[i a] [-> Hin]]. simpl. apply elem_of_map_to_list, Hin.
  - intros Hl. exists (doc_id d, doc_attrs d). split; [destruct d; reflexivity|].
    apply elem_of_map_to_list, Hl.
Qed.

(** X4.  INDEX always answers 200, leaves the collection as it is and
    lists, under the plural of the resource's name, exactly the stored
    documents, each of them once; for the empty collection the list is
    empty. *)
Theorem index_lists_collection (key : string) (st : gmap string (gmap string value)) :
  exists docs,
    index key st = (st, Fulfilled (Response 200 (Many (key ++ "s") docs)))
    /\ (forall id attrs, Doc id attrs ∈ docs <-> st !! id = Some attrs)
    /\ NoDup docs
    /\ length docs = size st
    /\ (st = ∅ -> docs = []).
Proof.
  exists ((fun '(i, a) => Doc i a) <$> map_to_list st).
  split; [apply index_cases|]. split; [|split; [|split]].
  - intros id attrs. apply (elem_of_documents st (Doc id attrs)).
  - apply NoDup_fmap_2; [|apply NoDup_map_to_list].
    intros [i a] [j c] [= -> ->]. reflexivity.
  - rewrite length_fmap. apply length_map_to_list.
  - intros ->. rewrite map_to_list_empty. reflexivity.
Qed.



(** ** What a request touches *)


(** X7.  An UPDATE whose payload has no update operator and no dotted
    path changes only fields the body names: when a field of the addressed
    document other than the [updatedAt] the store maintains reads
    differently after the request, the field is not [owner], and the
    resource's member of the body binds it to a value that is not the
    empty string. *)
Theorem update_changes_only_named_fields (key : string) (id : string)
  (b st : gmap string (gmap string value)) (attrs : gmap string value) :
  st !! id = Some attrs ->
  (forall raw, b !! key = Some raw -> plainKeys raw) ->
  exists attrs',
    (update key id b st).1 !! id = Some attrs'
    /\ forall field,
         field <> "updatedAt" ->
         attrs' !! field <> attrs !! field ->
         field <> "owner"
         /\ exists raw v,
              b !! key = Some raw /\ raw !! field = Some v /\ v <> VStr "".
Proof.
  intros Hid Hplain.
  destruct (b !! key) as [raw|] eqn:Hb.
  - pose proof (updatePayload_Some _ _ _ Hb) as Hp.
    pose proof (plainKeys_no_set _ (updatePayload_plainKeys _ _ _ _ Hb Hp (Hplain _ eq_refl)))
      as Hset.
    destruct (update_existing _ _ _ _ _ _ Hid Hp) as [[e ->] | ->]; simpl.
    + exists attrs. split; [exact Hid|]. intros field _ Hne. contradiction.
    + eexists. split; [apply lookup_insert_eq|]. intros field _ Hne.
      set (payload := delete "owner" _) in *.
      destruct (payload !! field) as [v|] eqn:Hfield.
      * destruct (lookup_updatePayload _ _ _ _ _ _ Hb Hp Hfield) as (Hraw & Hown & Hv).
        split; [exact Hown|]. exists raw, v. auto.
      * exfalso. apply Hne. apply lookup_update_frame; assumption.
  - rewrite update_cases, (updatePayload_None _ _ Hb). simpl.
    exists attrs. split; [exact Hid|]. intros field _ Hne. contradiction.
Qed.

Lemma update_changes_only_named_fields_witness :
  soloStore !! roomId = Some soloRoom
  /\ exists attrs',
       (update "chatroom" roomId joinBody soloStore).1 !! roomId = Some attrs'
       /\ forall field,
            field <> "updatedAt" ->
            attrs' !! field <> soloRoom !! field ->
            field <> "owner"
            /\ exists raw v,
                 joinBody !! "chatroom" = Some raw /\ raw !! field = Some v
                 /\ v <> VStr "".
Proof.
  split; [reflexivity|].
  apply (update_changes_only_named_fields "chatroom" roomId joinBody soloStore soloRoom).
  - reflexivity.
  - intros raw Hraw k [v Hk].
    change (Some ({[ "user2" := VStr (user_id carol); "owner" := VStr (user_id carol);
                     "title" := VStr "" ]} : gmap string value) = Some raw) in Hraw.
    injection Hraw as <-.
    apply lookup_insert_Some in Hk as [[<- _] | [_ Hk]]; [reflexivity|].
    apply lookup_insert_Some in Hk as [[<- _] | [_ Hk]]; [reflexivity|].
    apply lookup_singleton_Some in Hk as [<- _]. reflexivity.
Defined.

(** ** Creating *)

Lemma validate_true (sch : schema) (attrs : gmap string value) :
  Model.validate sch attrs = true
  <-> forall path, path ∈ required sch -> Model.present (attrs !! path) = true.
Proof.
  unfold Model.validate. rewrite forallb_forall. split.
  - intros H path Hin. apply H, list_elem_of_In, Hin.
  - intros H path Hin. apply H, list_elem_of_In, Hin.
Qed.

(** X8.  On POST /projects the owner the client sends has no influence:
    two bodies whose project payloads differ at most in [owner] get the
    same answer and leave the same collection. *)
Theorem project_create_ignores_client_owner (sch : schema) (newId : string) (u : user)
  (b st : gmap string (gmap string value)) (payload payload' : gmap string value) :
  delete "owner" payload = delete "owner" payload' ->
  ProjectRoutes.create sch newId u (<["project" := payload]> b) st
  = ProjectRoutes.create sch newId u (<["project" := payload']> b) st.
Proof.
  intros Hsame. unfold ProjectRoutes.create. rewrite !createAs_cases.
  rewrite !lookup_insert_eq. simpl.
  rewrite <- (insert_delete_eq payload), <- (insert_delete_eq payload'), Hsame.
  reflexivity.
Qed.

Lemma project_create_ignores_client_owner_witness :
  delete "owner" ({[ "title" := VStr "plan"; "user1" := VStr (user_id alice);
                     "owner" := VStr (user_id bob) ]} : gmap string value)
  = delete "owner" ({[ "title" := VStr "plan"; "user1" := VStr (user_id alice) ]}
                      : gmap string value)
  /\ ProjectRoutes.create titledSchema roomId alice
       (<["project" := {[ "title" := VStr "plan"; "user1" := VStr (user_id alice);
                          "owner" := VStr (user_id bob) ]}]> ∅) ∅
     = ProjectRoutes.create titledSchema roomId alice
         (<["project" := {[ "title" := VStr "plan"; "user1" := VStr (user_id alice) ]}]> ∅) ∅.
Proof.
  split; [reflexivity|].
  apply (project_create_ignores_client_owner titledSchema roomId alice ∅ ∅).
  reflexivity.
Defined.

(** X9.  On POST /chatrooms the principal has no influence: for one body,
    whoever is authenticated, the answer and the collection afterwards are
    the same. *)
Theorem chatroom_create_ignores_principal (sch : schema) (newId : string) (u u' : user)
  (b st : gmap string (gmap string value)) :
  ChatroomRoutes.create sch newId u b st = ChatroomRoutes.create sch newId u' b st.
Proof.
  unfold ChatroomRoutes.create. rewrite !createAs_cases.
  destruct (b !! "game") as [payload|]; [|reflexivity]. simpl.
  rewrite !lookup_insert_ne by discriminate. reflexivity.
Qed.

(** X10.  POST /projects stores a project only when the body has a
    [project] member that satisfies every required path of the schema
    other than [owner]; the owner itself need not be sent. *)
Theorem project_create_needs_required_paths (sch : schema) (newId : string) (u : user)
  (b st st' : gmap string (gmap string value)) (r : response) :
  ProjectRoutes.create sch newId u b st = (st', Fulfilled r) ->
  exists payload,
    b !! "project" = Some payload
    /\ forall path, path ∈ required sch -> path <> "owner" ->
                    Model.present (payload !! path) = true.
Proof.
  unfold ProjectRoutes.create. rewrite createAs_cases.
  destruct (b !! "project") as [payload|]; [|discriminate].
  rewrite lookup_insert_eq. simpl.
  destruct (Model.validate sch _) eqn:Hv; [|discriminate]. intros _.
  exists payload. split; [reflexivity|]. intros path Hin Hne.
  rewrite validate_true in Hv. specialize (Hv _ Hin).
  rewrite lookup_insert_ne in Hv by congruence. exact Hv.
Qed.

Lemma project_create_needs_required_paths_witness :
  ({[ "project" := {[ "user1" := VStr (user_id alice) ]} ]}
     : gmap string (gmap string value)) !! "project" ≫= (.!! "owner") = None
  /\ ProjectRoutes.create plainSchema roomId alice
       {[ "project" := {[ "user1" := VStr (user_id alice) ]} ]} ∅
     = ({[ roomId := soloRoom ]},
        Fulfilled (Response 201 (One "project" (Doc roomId soloRoom))))
  /\ exists payload,
       ({[ "project" := {[ "user1" := VStr (user_id alice) ]} ]}
          : gmap string (gmap string value)) !! "project" = Some payload
       /\ forall path, path ∈ required plainSchema -> path <> "owner" ->
                       Model.present (payload !! path) = true.
Proof.
  split; [reflexivity|]. split; [reflexivity|].
  apply (project_create_needs_required_paths plainSchema roomId alice
           {[ "project" := {[ "user1" := VStr (user_id alice) ]} ]} ∅
           {[ roomId := soloRoom ]}
           (Response 201 (One "project" (Doc roomId soloRoom)))).
  reflexivity.
Defined.

(** X11.  POST /chatrooms stores a chatroom only when the body has a
    [game] member and the chatroom payload itself carries an owner: under a
    schema that requires [owner], a body without [game] ends with a
    TypeError whatever its chatroom, and a request that succeeds had a
    [game] member and an owner in its chatroom payload. *)
Theorem chatroom_create_needs_payload_owner (sch : schema) (newId : string) (u : user)
  (b st : gmap string (gmap string value)) :
  "owner" ∈ required sch ->
  (b !! "game" = None ->
     ChatroomRoutes.create sch newId u b st = (st, Rejected TypeError))
  /\ (forall st' r,
        ChatroomRoutes.create sch newId u b st = (st', Fulfilled r) ->
        is_Some (b !! "game")
        /\ exists payload,
             b !! "chatroom" = Some payload
             /\ Model.present (payload !! "owner") = true).
Proof.
  intros Hreq. unfold ChatroomRoutes.create. rewrite createAs_cases.
  split.
  - intros ->. reflexivity.
  - intros st' r.
    destruct (b !! "game") as [g|]; [|discriminate]. simpl.
    rewrite lookup_insert_ne by discriminate.
    destruct (Model.validate sch _) eqn:Hv; [|discriminate]. intros _.
    split; [eauto|].
    rewrite validate_true in Hv. specialize (Hv _ Hreq).
    destruct (b !! "chatroom") as [payload|]; simpl in Hv.
    + exists payload. split; [reflexivity | exact Hv].
    + rewrite lookup_empty in Hv. discriminate Hv.
Qed.

Lemma chatroom_create_needs_payload_owner_witness :
  "owner" ∈ required plainSchema
  /\ ChatroomRoutes.create plainSchema roomId alice plainBody ∅ = (∅, Rejected TypeError)
  /\ (is_Some (forgedBody !! "game")
      /\ exists payload,
           forgedBody !! "chatroom" = Some payload
           /\ Model.present (payload !! "owner") = true).
Proof.
  assert ("owner" ∈ required plainSchema) as Hreq by (simpl; set_solver).
  split; [exact Hreq|]. split.
  - apply (proj1 (chatroom_create_needs_payload_owner plainSchema roomId alice
                    plainBody ∅ Hreq)).
    reflexivity.
  - apply (proj2 (chatroom_create_needs_payload_owner plainSchema roomId alice
                    forgedBody ∅ Hreq)
             {[ roomId := forgedRoom ]}
             (Response 201 (One "chatroom" (Doc roomId forgedRoom)))).
    reflexivity.
Defined.

(** ** Failing *)


(** ** One request after another *)

(** X13.  What CREATE answers is what SHOW then gives: after a create that
    succeeded, SHOW of the new id answers 200 with the very document the
    create sent back with 201. *)
Theorem create_then_show (key : string) (sch : schema) (target : string)
  (newId : string) (u : user) (b st st' : gmap string (gmap string value))
  (r : response) :
  createAs key sch target newId u b st = (st', Fulfilled r) ->
  exists d,
    r = Response 201 (One key d)
    /\ doc_id d = newId
    /\ show key newId st' = (st', Fulfilled (Response 200 (One key d))).
Proof.
  rewrite createAs_cases. destruct (b !! target); [|discriminate]. simpl.
  destruct (Model.validate sch _ && Model.castablePaths _); [|discriminate].
  intros [= <- <-]. eexists. split; [reflexivity|]. split; [reflexivity|].
  rewrite show_cases, lookup_insert_eq. reflexivity.
Qed.

Lemma create_then_show_witness :
  ProjectRoutes.create titledSchema roomId alice projectBody ∅
  = ({[ roomId := plan ]}, Fulfilled (Response 201 (One "project" (Doc roomId plan))))
  /\ exists d,
       Response 201 (One "project" (Doc roomId plan)) = Response 201 (One "project" d)
       /\ doc_id d = roomId
       /\ show "project" roomId {[ roomId := plan ]}
          = ({[ roomId := plan ]}, Fulfilled (Response 200 (One "project" d))).
Proof.
  split; [reflexivity|].
  apply (create_then_show "project" titledSchema "project" roomId alice projectBody ∅).
  reflexivity.
Defined.

(** X14.  A project can be deleted by the principal who created it, and by
    no other: after a POST /projects that succeeded under an id that was
    free, DELETE by the same principal answers 204 and the collection is
    again what it was before the create, while DELETE by a principal of
    another id fails with NotOwner. *)
Theorem project_create_then_destroy (sch : schema) (newId : string) (u : user)
  (b st st' : gmap string (gmap string value)) (r : response) :
  st !! newId = None ->
  ProjectRoutes.create sch newId u b st = (st', Fulfilled r) ->
  destroy u newId st' = (st, Fulfilled (Response 204 NoContent))
  /\ forall u', user_id u' <> user_id u ->
                destroy u' newId st' = (st', Rejected NotOwner).
Proof.
  intros Hfree. unfold ProjectRoutes.create. rewrite createAs_cases.
  destruct (b !! "project") as [payload|]; [|discriminate].
  rewrite lookup_insert_eq. simpl.
  destruct (Model.validate sch _ && Model.castablePaths _); [|discriminate].
  intros [= <- <-].
  assert (forall u',
            owns u' (Doc newId (Model.castPaths (<["owner" := VStr (user_id u)]> payload)))
            = bool_decide (user_id u = user_id u')) as Howns.
  { intros u'. unfold owns; simpl. rewrite lookup_castPaths, lookup_insert_eq. simpl.
    apply bool_decide_ext. split; congruence. }
  split.
  - rewrite destroy_cases, lookup_insert_eq, Howns.
    rewrite bool_decide_eq_true_2 by reflexivity.
    rewrite (delete_insert_id _ _ _ Hfree). reflexivity.
  - intros u' Hne. rewrite destroy_cases, lookup_insert_eq, Howns.
    rewrite bool_decide_eq_false_2 by congruence. reflexivity.
Qed.

Lemma project_create_then_destroy_witness :
  (∅ : gmap string (gmap string value)) !! roomId = None
  /\ ProjectRoutes.create titledSchema roomId alice projectBody ∅
     = ({[ roomId := plan ]}, Fulfilled (Response 201 (One "project" (Doc roomId plan))))
  /\ destroy alice roomId {[ roomId := plan ]} = (∅, Fulfilled (Response 204 NoContent))
  /\ destroy bob roomId {[ roomId := plan ]} = ({[ roomId := plan ]}, Rejected NotOwner).
Proof.
  assert ((∅ : gmap string (gmap string value)) !! roomId = None) as Hfree
    by reflexivity.
  assert (ProjectRoutes.create titledSchema roomId alice projectBody ∅
          = ({[ roomId := plan ]},
             Fulfilled (Response 201 (One "project" (Doc roomId plan))))) as Hrun
    by reflexivity.
  destruct (project_create_then_destroy titledSchema roomId alice projectBody ∅ _ _
              Hfree Hrun) as [Hown Hother].
  split; [exact Hfree|]. split; [exact Hrun|]. split; [exact Hown|].
  apply Hother. discriminate.
Defined.

(** X15.  Once a DELETE has succeeded, the id is gone for good: the answer
    was 204 without content, and from then on SHOW of the id, a further
    DELETE by anyone and an UPDATE with a payload all fail with NotFound
    and leave the collection as the delete left it. *)
Theorem deleted_is_terminal (key : string) (u : user) (id : string)
  (st st' : gmap string (gmap string value)) (r : response) :
  destroy u id st = (st', Fulfilled r) ->
  r = Response 204 NoContent
  /\ show key id st' = (st', Rejected NotFound)
  /\ (forall u', destroy u' id st' = (st', Rejected NotFound))
  /\ (forall b, is_Some (b !! key) -> update key id b st' = (st', Rejected NotFound)).
Proof.
  rewrite destroy_cases. destruct (st !! id) as [attrs|]; [|discriminate].
  destruct (owns u (Doc id attrs)); [|discriminate].
  intros [= <- <-]. split; [reflexivity|].
  split; [|split].
  - rewrite show_cases, lookup_delete_eq. reflexivity.
  - intros u'. rewrite destroy_cases, lookup_delete_eq. reflexivity.
  - intros b [raw Hraw].
    rewrite update_cases, (updatePayload_Some _ _ _ Hraw), lookup_delete_eq.
    reflexivity.
Qed.

Lemma deleted_is_terminal_witness :
  destroy alice roomId pairStore = (∅, Fulfilled (Response 204 NoContent))
  /\ show "chatroom" roomId ∅ = (∅, Rejected NotFound)
  /\ (forall u', destroy u' roomId ∅ = (∅, Rejected NotFound))
  /\ (forall b, is_Some (b !! "chatroom") ->
                update "chatroom" roomId b ∅ = (∅, Rejected NotFound)).
Proof.
  assert (destroy alice roomId pairStore = (∅, Fulfilled (Response 204 NoContent)))
    as Hrun by reflexivity.
  split; [exact Hrun|].
  apply (deleted_is_terminal "chatroom" alice roomId pairStore ∅
           (Response 204 NoContent) Hrun).
Defined.

(** X17.  Setting the second participant closes the resource to further
    updates: on a resource whose [user1] is held as an identifier object
    and whose [user2] is unset, an UPDATE whose sanitized payload is just
    a [user2] given as the text of an identifier goes through, the
    document then holding that participant, and after it every UPDATE of
    the resource, whatever its body, ends with a TypeError and changes
    nothing. *)
Theorem update_join_closes (key : string) (id : string)
  (b st : gmap string (gmap string value)) (attrs : gmap string value)
  (h1 h2 : string) :
  st !! id = Some attrs ->
  attrs !! "user1" = Some (VObjectId h1) ->
  attrs !! "user2" = None ->
  updatePayload key b = Some {[ "user2" := VStr h2 ]} ->
  isObjectId h2 = true ->
  exists attrs',
    update key id b st
    = (<[id := attrs']> st, Fulfilled (Response 201 (One key (Doc id attrs'))))
    /\ attrs' !! "user2" = Some (VObjectId h2)
    /\ forall b',
         update key id b' (update key id b st).1
         = ((update key id b st).1, Rejected TypeError).
Proof.
  intros Hid H1 H2 Hp Hh2.
  set (payload := ({[ "user2" := VStr h2 ]} : gmap string value)) in *.
  assert (namesParticipants payload) as Hnames.
  { intros k v Hk. apply lookup_singleton_Some in Hk as [<- <-].
    left. split; [right; reflexivity|]. eauto. }
  destruct (namesParticipants_castable _ (updatePayload_owner _ _ _ Hp) Hnames)
    as [Hset Hcast].
  set (attrs' := Model.cast payload ∪ attrs).
  assert (update key id b st
          = (<[id := attrs']> st, Fulfilled (Response 201 (One key (Doc id attrs')))))
    as Hfirst.
  { rewrite update_cases, Hp, Hid, H2, (findOneAndUpdate_cases _ _ _ _ Hid), Hcast.
    reflexivity. }
  assert (attrs' !! "user1" = Some (VObjectId h1)) as H1'.
  { unfold attrs'. rewrite lookup_update_frame; [exact H1 | exact Hset | reflexivity]. }
  assert (attrs' !! "user2" = Some (VObjectId h2)) as H2'.
  { unfold attrs'. rewrite (lookup_update_set _ _ "user2" (VStr h2) Hset); reflexivity. }
  exists attrs'. split; [exact Hfirst|]. split; [exact H2'|].
  intros b'. rewrite Hfirst. simpl. rewrite update_cases.
  destruct (updatePayload key b') as [payload'|]; [|reflexivity].
  rewrite lookup_insert_eq, H2'.
  assert (mismatch payload' (Doc id attrs') = true) as ->; [|reflexivity].
  apply mismatch_true. simpl. rewrite H1', H2'. split; apply strictEq_ObjectId.
Qed.

Lemma update_join_closes_witness :
  soloStore !! roomId = Some soloRoom
  /\ updatePayload "chatroom" joinBody = Some {[ "user2" := VStr (user_id carol) ]}
  /\ isObjectId (user_id carol) = true
  /\ update "chatroom" roomId joinBody soloStore
     = ({[ roomId := joinedRoom ]},
        Fulfilled (Response 201 (One "chatroom" (Doc roomId joinedRoom))))
  /\ exists attrs',
       update "chatroom" roomId joinBody soloStore
       = (<[roomId := attrs']> soloStore,
          Fulfilled (Response 201 (One "chatroom" (Doc roomId attrs'))))
       /\ attrs' !! "user2" = Some (VObjectId (user_id carol))
       /\ forall b',
            update "chatroom" roomId b' (update "chatroom" roomId joinBody soloStore).1
            = ((update "chatroom" roomId joinBody soloStore).1, Rejected TypeError).
Proof.
  split; [reflexivity|]. split; [reflexivity|]. split; [reflexivity|].
  split; [reflexivity|].
  apply (update_join_closes "chatroom" roomId joinBody soloStore soloRoom
           (user_id alice) (user_id carol));
    reflexivity.
Defined.

(** ** The routers *)

(** ** The routers *)

Lemma matches_exclusive (segment a c : string) :
  a <> c -> matches segment a = true -> matches segment c = false.
Proof.
  unfold matches. intros Hne Ha. apply String.eqb_eq in Ha.
  apply String.eqb_neq. congruence.
Qed.

(** X18.  UPDATE is the one route that runs without a token: what a router
    does with a PATCH request does not depend on the principal, a request
    without one included; for any other method a request without a
    principal is refused or not routed, so that it never reaches the
    collection. *)
Theorem only_update_runs_without_token (key : string) (sch : schema)
  (target collectionPath destroyPath : string) (newId : string) (req : request)
  (st : gmap string (gmap string value)) :
  (req_verb req = PATCH ->
     forall ou,
       router key sch target collectionPath destroyPath newId (withUser ou req) st
       = router key sch target collectionPath destroyPath newId req st)
  /\ (req_verb req <> PATCH -> req_user req = None ->
        router key sch target collectionPath destroyPath newId req st = NoRoute
        \/ router key sch target collectionPath destroyPath newId req st = Unauthorized).
Proof.
  destruct req as [v path ou' b]. unfold router, requireToken, withUser; simpl. split.
  - intros -> ou. reflexivity.
  - intros Hv ->.
    destruct v; try contradiction;
      destruct path as [|p [|id [|x rest]]]; auto;
      destruct (matches p _); auto.
Qed.

(** X19.  Reading is not restricted by who asks: for a GET or HEAD request
    a router does the same for every principal, so that any authenticated
    principal is given every document INDEX lists and any document SHOW
    finds. *)
Theorem reads_ignore_principal (key : string) (sch : schema)
  (target collectionPath destroyPath : string) (newId : string) (req : request)
  (st : gmap string (gmap string value)) (u u' : user) :
  req_verb req = GET \/ req_verb req = HEAD ->
  router key sch target collectionPath destroyPath newId (withUser (Some u) req) st
  = router key sch target collectionPath destroyPath newId (withUser (Some u') req) st.
Proof.
  destruct req as [v path ou b]. unfold router, requireToken, withUser; simpl.
  intros [-> | ->]; destruct path as [|p [|id [|x rest]]]; try reflexivity;
    destruct (matches p collectionPath); reflexivity.
Qed.

Lemma reads_ignore_principal_witness :
  chatroomRouter plainSchema otherId (Request GET ["chatrooms"; roomId] (Some carol) ∅)
    pairStore
  = Handled (pairStore, Fulfilled (Response 200 (One "chatroom" (Doc roomId pairRoom))))
  /\ chatroomRouter plainSchema otherId
       (withUser (Some carol) (Request GET ["chatrooms"; roomId] None ∅)) pairStore
     = chatroomRouter plainSchema otherId
         (withUser (Some alice) (Request GET ["chatrooms"; roomId] None ∅)) pairStore.
Proof.
  split; [reflexivity|].
  apply (reads_ignore_principal "chatroom" plainSchema "game" "chatrooms" "games" otherId
           (Request GET ["chatrooms"; roomId] None ∅) pairStore carol alice).
  left. reflexivity.
Defined.

(** X20.  A chatroom is deleted under [/games/:id] and not under
    [/chatrooms/:id]: on a DELETE request the chatroom router runs a
    handler exactly when the path is [games] (in any case) followed by an
    id and the request has a principal, and the handler is DESTROY of
    that id by that principal. *)
Theorem chatroom_destroy_path (sch : schema) (newId : string) (req : request)
  (st : gmap string (gmap string value))
  (outcome : gmap string (gmap string value) * settled response) :
  req_verb req = DELETE ->
  chatroomRouter sch newId req st = Handled outcome
  <-> exists p id u,
        req_path req = [p; id]
        /\ lower p = "games"
        /\ req_user req = Some u
        /\ outcome = ChatroomRoutes.destroy u id st.
Proof.
  destruct req as [v path ou b]. simpl. intros ->.
  unfold chatroomRouter, router, requireToken, matches; simpl. split.
  - destruct path as [|p [|id [|x rest]]]; try discriminate.
    destruct (String.eqb (lower p) "games") eqn:Hp; [|discriminate].
    destruct ou as [u|]; [|discriminate].
    intros [= <-]. exists p, id, u. apply String.eqb_eq in Hp. auto.
  - intros (p & id & u & -> & Hp & -> & ->).
    apply String.eqb_eq in Hp. rewrite Hp. reflexivity.
Qed.

Lemma chatroom_destroy_path_witness :
  chatroomRouter plainSchema otherId (Request DELETE ["games"; roomId] (Some alice) ∅)
    pairStore
  = Handled (∅, Fulfilled (Response 204 NoContent))
  /\ chatroomRouter plainSchema otherId
       (Request DELETE ["chatrooms"; roomId] (Some alice) ∅) pairStore
     = NoRoute
  /\ exists p id u,
       [("games" : string); roomId] = [p; id]
       /\ lower p = "games"
       /\ Some alice = Some u
       /\ (∅, Fulfilled (Response 204 NoContent)) = ChatroomRoutes.destroy u id pairStore.
Proof.
  split; [reflexivity|]. split; [reflexivity|].
  apply (chatroom_destroy_path plainSchema otherId
           (Request DELETE ["games"; roomId] (Some alice) ∅) pairStore
           (∅, Fulfilled (Response 204 NoContent))).
  - reflexivity.
  - reflexivity.
Defined.

(** X21.  The two routers never serve the same request: whatever the
    request, at least one of them has no route for it, so that the order
    in which an application mounts them does not matter. *)
Theorem routers_disjoint (sch sch' : schema) (newId newId' : string) (req : request)
  (st : gmap string (gmap string value)) :
  chatroomRouter sch newId req st = NoRoute
  \/ projectRouter sch' newId' req st = NoRoute.
Proof.
  destruct req as [v path ou b]. unfold chatroomRouter, projectRouter, router; simpl.
  destruct v; destruct path as [|p [|id [|x rest]]]; auto;
    try (destruct (matches p "chatrooms") eqn:Hc; [|auto];
         rewrite (matches_exclusive p "chatrooms" "projects") by (discriminate || exact Hc);
         auto).
  destruct (matches p "games") eqn:Hc; [|auto].
  rewrite (matches_exclusive p "games" "projects") by (discriminate || exact Hc).
  auto.
Qed.

(** A PATCH without a token sets the second participant of alice's
    chatroom; the same request as a GET is refused, and a path in capitals
    is served like the one in small letters. *)
Example requests_without_token :
  chatroomRouter plainSchema otherId
    (Request PATCH ["chatrooms"; roomId] None joinBody) soloStore
  = Handled ({[ roomId := joinedRoom ]},
             Fulfilled (Response 201 (One "chatroom" (Doc roomId joinedRoom))))
  /\ chatroomRouter plainSchema otherId
       (Request GET ["chatrooms"; roomId] None joinBody) soloStore
     = Unauthorized
  /\ chatroomRouter plainSchema otherId
       (Request GET ["Chatrooms"; roomId] (Some bob) ∅) soloStore
     = Handled (soloStore, Fulfilled (Response 200 (One "chatroom" (Doc roomId soloRoom)))).
Proof. repeat split; reflexivity. Qed.
